(** * auth-sdk: the auth context, the [useAuthAPI] hook and the login form

    A shallow embedding of

    - [src/context/AuthContext.tsx]  ([AuthProvider], [useAuth]),
    - [src/hooks/useAuth.ts]         ([useAuthAPI]),
    - [src/components/LoginForm.tsx] ([LoginForm], [handleSubmit]),
    - [src/index.ts]                 (the export list),

    followed by the properties of the session they maintain.

    React keeps the value of each [useState] call in a cell that outlives
    the render; a setter replaces the cell and the next render reads the new
    value.  The cells are threaded explicitly through every handler. *)

From Stdlib Require Import String List Bool.
Import ListNotations.
Local Open Scope string_scope.

(* ================================================================== *)
(** * The JavaScript fragment the sources use *)
(* ================================================================== *)

Module JS.

(** ECMAScript [ToBoolean] on a value of type [string | null]: [null] and
    the empty string are falsy, every other string is truthy. *)
Definition ToBoolean (v : option string) : bool :=
  match v with
  | None => false
  | Some EmptyString => false
  | Some (String _ _) => true
  end.

(** The prefix operator [!v]. *)
Definition lnot (v : option string) : bool := negb (ToBoolean v).

(** [new Error(message)]. *)
Inductive Error : Type := mkError (message : string).

(** How the evaluation of a function body ends. *)
Inductive Completion (A : Type) : Type :=
| Normal (a : A)
| Throw (e : Error).

(** The settled state of a promise. *)
Inductive Promise (A : Type) : Type :=
| Fulfilled (a : A)
| Rejected (e : Error).

Arguments Normal {A} a.
Arguments Throw {A} e.
Arguments Fulfilled {A} a.
Arguments Rejected {A} e.

End JS.
Import JS.

(* ================================================================== *)
(** * Handlers: state passing with exceptions *)
(* ================================================================== *)

Section Handlers.

Variable W : Type.

(** A synchronous computation over the world [W]. *)
Definition M (A : Type) : Type := W -> Completion A * W.

(** What calling an [async] function does: it runs, and hands back a
    promise. *)
Definition Async (A : Type) : Type := W -> Promise A * W.

Definition ret {A : Type} (a : A) : M A := fun w => (Normal a, w).

Definition throw {A : Type} (e : Error) : M A := fun w => (Throw e, w).

Definition bind {A B : Type} (m : M A) (k : A -> M B) : M B :=
  fun w =>
    match m w with
    | (Normal a, w') => k a w'
    | (Throw e, w') => (Throw e, w')
    end.

(** [async (...) => { body }]: the call itself never throws; an exception in
    the body rejects the returned promise, normal completion fulfils it. *)
Definition async {A : Type} (body : M A) : Async A :=
  fun w =>
    match body w with
    | (Normal a, w') => (Fulfilled a, w')
    | (Throw e, w') => (Rejected e, w')
    end.

(** Calling an async function from a body. *)
Definition call {A : Type} (f : Async A) : M (Promise A) :=
  fun w => let (p, w') := f w in (Normal p, w').

(** [await p] on a settled promise.  The UI thread is the only one
    there is, so nothing else runs between settling and resumption. *)
Definition await {A : Type} (p : Promise A) : M A :=
  match p with
  | Fulfilled a => ret a
  | Rejected e => throw e
  end.

End Handlers.

Arguments ret {W A} a.
Arguments throw {W A} e.
Arguments bind {W A B} m k.
Arguments async {W A} body.
Arguments call {W A} f.
Arguments await {W A} p.

Declare Scope handler_scope.
Delimit Scope handler_scope with handler.
Notation "x <- m ;; k" := (bind m (fun x => k))
  (at level 61, m at next level, right associativity) : handler_scope.
Notation "m ;; k" := (bind m (fun _ => k))
  (at level 61, right associativity) : handler_scope.
Local Open Scope handler_scope.

(* ================================================================== *)
(** * The hook cells of the example tree *)
(* ================================================================== *)

(** [<AuthProvider><LoginForm /></AuthProvider>] owns three [useState]
    cells; the fourth field is the flag of the submit event in flight. *)
Record World : Type := mkWorld {
  user_cell : option string;      (* useState<string | null>(null) *)
  username_cell : string;         (* useState('') *)
  password_cell : string;         (* useState('') *)
  defaultPrevented : bool         (* e.defaultPrevented *)
}.

(** The setters returned by [useState]. *)
Definition setUser (v : option string) : M World unit :=
  fun w => (Normal tt,
            mkWorld v (username_cell w) (password_cell w) (defaultPrevented w)).

Definition setUsername (v : string) : M World unit :=
  fun w => (Normal tt,
            mkWorld (user_cell w) v (password_cell w) (defaultPrevented w)).

Definition setPassword (v : string) : M World unit :=
  fun w => (Normal tt,
            mkWorld (user_cell w) (username_cell w) v (defaultPrevented w)).

(** The first render: every cell holds the argument of its [useState]. *)
Definition mount : World := mkWorld None "" "" false.

(* ================================================================== *)
(** * src/context/AuthContext.tsx *)
(* ================================================================== *)

(** [interface AuthContextType]. *)
Module AuthContextType.
Record t : Type := mk {
  user : option string;
  login : string -> string -> Async World unit;
  logout : M World unit
}.
End AuthContextType.

Module AuthContext.

(** [const login = async (username, password) => { setUser(username); }] *)
Definition login (username password : string) : Async World unit :=
  async (setUser (Some username)).

(** [const logout = () => setUser(null)] *)
Definition logout : M World unit := setUser None.

(** The value [AuthProvider] hands to [AuthContext.Provider] at a render. *)
Definition AuthProvider (w : World) : AuthContextType.t :=
  AuthContextType.mk (user_cell w) login logout.

(** Where a consumer is rendered. *)
Inductive Tree : Type := InsideProvider | OutsideProvider.

(** [useContext(AuthContext)]: the value of the enclosing provider, or the
    default [undefined] given to [createContext]. *)
Definition useContext (t : Tree) (w : World) : option AuthContextType.t :=
  match t with
  | InsideProvider => Some (AuthProvider w)
  | OutsideProvider => None
  end.

Definition missing_provider : Error :=
  mkError "useAuth must be used within an AuthProvider".

(** [useAuth]: an object is truthy, [undefined] is not. *)
Definition useAuth (context : option AuthContextType.t)
  : Completion AuthContextType.t :=
  match context with
  | None => Throw missing_provider
  | Some c => Normal c
  end.

End AuthContext.

(* ================================================================== *)
(** * src/hooks/useAuth.ts *)
(* ================================================================== *)

(** The object literal [useAuthAPI] returns. *)
Module AuthAPI.
Record t : Type := mk {
  isAuthenticated : bool;
  user : option string;
  login : string -> string -> Async World unit;
  logout : M World unit
}.
End AuthAPI.

Module Hooks.

Definition useAuthAPI (context : option AuthContextType.t)
  : Completion AuthAPI.t :=
  match AuthContext.useAuth context with
  | Throw e => Throw e
  | Normal c =>
      Normal (AuthAPI.mk
                (negb (lnot (AuthContextType.user c)))   (* !!user *)
                (AuthContextType.user c)
                (AuthContextType.login c)
                (AuthContextType.logout c))
  end.

End Hooks.

(* ================================================================== *)
(** * src/components/LoginForm.tsx *)
(* ================================================================== *)

(** The part of [React.FormEvent] the form touches. *)
Module FormEvent.
Record t (W : Type) : Type := mk { preventDefault : M W unit }.
Arguments mk {W} preventDefault.
Arguments preventDefault {W} _.
End FormEvent.

(** What a render of the form hands to the DOM. *)
Module FormElement.
Record t : Type := mk {
  onSubmit : FormEvent.t World -> Async World unit;
  usernameValue : string;
  usernameOnChange : string -> M World unit;
  passwordValue : string;
  passwordOnChange : string -> M World unit
}.
End FormElement.

Module LoginForm.

Section Closure.

(** [handleSubmit] closes over the [login] taken from [useAuthAPI()] and
    over the two state values of the render it was created in. *)
Variable W : Type.
Variable login : string -> string -> Async W unit.
Variables username password : string.

Definition handleSubmit (e : FormEvent.t W) : Async W unit :=
  async (FormEvent.preventDefault e ;;
         p <- call (login username password) ;;
         await p ;;
         ret tt).

End Closure.

Arguments handleSubmit {W} login username password e.

(** One render of [LoginForm]. *)
Definition LoginForm (context : option AuthContextType.t) (w : World)
  : Completion FormElement.t :=
  match Hooks.useAuthAPI context with
  | Throw e => Throw e
  | Normal api =>
      Normal (FormElement.mk
                (handleSubmit (AuthAPI.login api)
                              (username_cell w) (password_cell w))
                (username_cell w)
                (fun value => setUsername value)
                (password_cell w)
                (fun value => setPassword value))
  end.

End LoginForm.

(* ================================================================== *)
(** * src/index.ts *)
(* ================================================================== *)

Module Index.

(** Each exported binding with the module it is re-exported from, in the
    order of the file. *)
Definition exports : list (string * string) :=
  [ ("AuthProvider", "./context/AuthContext");
    ("useAuth", "./context/AuthContext");
    ("LoginForm", "./components/LoginForm");
    ("useAuthAPI", "./hooks/useAuth") ].

Definition names : list string := map fst exports.

(** React's naming rule: a hook is a function whose name starts with
    [use]. *)
Definition is_hook (name : string) : bool := String.prefix "use" name.

End Index.

(* ================================================================== *)
(** * The running application *)
(* ================================================================== *)

Import AuthContext.

(** What a consumer rendered below the provider gets from the facade. *)
Definition facade (w : World) : Completion AuthAPI.t :=
  Hooks.useAuthAPI (useContext InsideProvider w).

(** The browser's submit event: [preventDefault] raises the flag. *)
Definition submitEvent : FormEvent.t World :=
  FormEvent.mk
    (fun w => (Normal tt,
               mkWorld (user_cell w) (username_cell w) (password_cell w) true)).

(** A fresh event starts with the flag down. *)
Definition freshEvent (w : World) : World :=
  mkWorld (user_cell w) (username_cell w) (password_cell w) false.

(** The browser follows the form's action unless the handler prevented
    it. *)
Definition navigates (w : World) : bool := negb (defaultPrevented w).

(** Things that happen to the mounted tree. *)
Inductive Action : Type :=
| CallLogin (username password : string)   (* a consumer calls api.login *)
| CallLogout                               (* a consumer calls api.logout *)
| TypeUsername (value : string)            (* onChange of the first input *)
| TypePassword (value : string)            (* onChange of the second input *)
| Submit.                                  (* onSubmit of the form *)

Definition step (a : Action) (w : World) : World :=
  match a with
  | CallLogin username password =>
      match facade w with
      | Normal api => snd (AuthAPI.login api username password w)
      | Throw _ => w
      end
  | CallLogout =>
      match facade w with
      | Normal api => snd (AuthAPI.logout api w)
      | Throw _ => w
      end
  | TypeUsername value =>
      match LoginForm.LoginForm (useContext InsideProvider w) w with
      | Normal form => snd (FormElement.usernameOnChange form value w)
      | Throw _ => w
      end
  | TypePassword value =>
      match LoginForm.LoginForm (useContext InsideProvider w) w with
      | Normal form => snd (FormElement.passwordOnChange form value w)
      | Throw _ => w
      end
  | Submit =>
      match LoginForm.LoginForm (useContext InsideProvider w) w with
      | Normal form => snd (FormElement.onSubmit form submitEvent (freshEvent w))
      | Throw _ => w
      end
  end.

(** Running a sequence of actions, first action first. *)
Fixpoint steps (l : list Action) (w : World) : World :=
  match l with
  | [] => w
  | a :: l' => steps l' (step a w)
  end.

(** The states the mounted tree can be in. *)
Inductive reachable : World -> Prop :=
| reachable_mount : reachable mount
| reachable_step : forall a w, reachable w -> reachable (step a w).

(** The username of the login call an action makes, if it makes one. *)
Definition login_call (a : Action) (w : World) : option string :=
  match a with
  | CallLogin username _ => Some username
  | Submit => Some (username_cell w)
  | _ => None
  end.

(* ------------------------------------------------------------------ *)
(** ** Test doubles for the form *)
(* ------------------------------------------------------------------ *)

(** A recording world: the calls a handler made, oldest first. *)
Inductive Observed : Type :=
| SawPreventDefault
| SawLogin (username password : string).

Definition spyEvent : FormEvent.t (list Observed) :=
  FormEvent.mk (fun tr => (Normal tt, (tr ++ [SawPreventDefault])%list)).

Definition spyLogin (username password : string) : Async (list Observed) unit :=
  async (fun tr => (Normal tt, (tr ++ [SawLogin username password])%list)).

Definition is_login (o : Observed) : bool :=
  match o with
  | SawLogin _ _ => true
  | SawPreventDefault => false
  end.

(** A [login] whose promise is rejected, as a real API call may be; it
    still records that it was called. *)
Definition rejectingLogin (err : Error) (username password : string)
  : Async (list Observed) unit :=
  async (fun tr => (Throw err, (tr ++ [SawLogin username password])%list)).

(** An event object whose [preventDefault] throws. *)
Definition throwingEvent (err : Error) : FormEvent.t (list Observed) :=
  FormEvent.mk (fun tr => (Throw err, tr)).

(** A [login] for the mounted tree that keeps a call log in the session
    cell: each call appends one entry holding its two arguments. *)
Definition loggingLogin (username password : string) : Async World unit :=
  async (fun w =>
           setUser (Some (match user_cell w with
                          | Some log => log
                          | None => ""
                          end
                          ++ "login(" ++ username ++ "," ++ password ++ ");"))
                   w).

(** A provider value that hands out the logging [login]. *)
Definition loggingContext (w : World) : AuthContextType.t :=
  AuthContextType.mk (user_cell w) loggingLogin logout.

(* ------------------------------------------------------------------ *)
(** ** Vocabulary for runs *)
(* ------------------------------------------------------------------ *)

(** One render of the form below the provider. *)
Definition renderForm (w : World) : Completion FormElement.t :=
  LoginForm.LoginForm (useContext InsideProvider w) w.

(** The keystroke actions. *)
Definition is_typing (a : Action) : bool :=
  match a with
  | TypeUsername _ | TypePassword _ => true
  | _ => false
  end.

(** The value last typed into the first input during a run, or [current]
    when nothing was typed there. *)
Fixpoint last_username (l : list Action) (current : string) : string :=
  match l with
  | [] => current
  | TypeUsername value :: l' => last_username l' value
  | _ :: l' => last_username l' current
  end.

(** The same for the second input. *)
Fixpoint last_password (l : list Action) (current : string) : string :=
  match l with
  | [] => current
  | TypePassword value :: l' => last_password l' value
  | _ :: l' => last_password l' current
  end.

(** An action with its password blanked: what is left of it for an
    observer who must not learn passwords. *)
Definition erase_password (a : Action) : Action :=
  match a with
  | CallLogin username _ => CallLogin username ""
  | TypePassword _ => TypePassword ""
  | _ => a
  end.

(** Two states that differ at most in the password field. *)
Definition same_but_password (w1 w2 : World) : Prop :=
  user_cell w1 = user_cell w2
  /\ username_cell w1 = username_cell w2
  /\ defaultPrevented w1 = defaultPrevented w2.

(* ================================================================== *)
(** * Basic facts *)
(* ================================================================== *)

Example run_typed_submit :
  steps [TypeUsername "alice"; TypePassword "pw1"; Submit] mount
  = mkWorld (Some "alice") "alice" "pw1" true.
Proof. reflexivity. Qed.

Example run_empty_login :
  facade (step (CallLogin "" "pw") mount)
  = Normal (AuthAPI.mk false (Some "") login logout).
Proof. reflexivity. Qed.

(** [!!v] is [ToBoolean v]. *)
Lemma double_negation (v : option string) : negb (lnot v) = ToBoolean v.
Proof. unfold lnot. apply negb_involutive. Qed.

(** Truthiness of a [string | null]: present and not empty. *)
Lemma ToBoolean_true_iff (v : option string) :
  ToBoolean v = true <-> exists u, v = Some u /\ u <> "".
Proof.
  split.
  - destruct v as [[|c s]|]; simpl; intros H; try discriminate H.
    exists (String c s). split; [reflexivity | discriminate].
  - intros [u [-> Hu]]. destruct u as [|c s]; [now elim Hu | reflexivity].
Qed.


(** What the facade shows below the provider. *)
Lemma facade_eq (w : World) :
  facade w
  = Normal (AuthAPI.mk (ToBoolean (user_cell w)) (user_cell w) login logout).
Proof.
  unfold facade, Hooks.useAuthAPI. simpl.
  now rewrite double_negation.
Qed.

Lemma login_eq (username password : string) (w : World) :
  login username password w
  = (Fulfilled tt,
     mkWorld (Some username) (username_cell w) (password_cell w)
             (defaultPrevented w)).
Proof. reflexivity. Qed.

Lemma logout_eq (w : World) :
  logout w
  = (Normal tt,
     mkWorld None (username_cell w) (password_cell w) (defaultPrevented w)).
Proof. reflexivity. Qed.

Lemma step_login_eq (username password : string) (w : World) :
  step (CallLogin username password) w = snd (login username password w).
Proof. reflexivity. Qed.

Lemma step_logout_eq (w : World) : step CallLogout w = snd (logout w).
Proof. reflexivity. Qed.

(** The form's handler with the provider's [login] and a browser event. *)
Lemma handleSubmit_eq (username password : string) (w : World) :
  LoginForm.handleSubmit login username password submitEvent w
  = (Fulfilled tt,
     mkWorld (Some username) (username_cell w) (password_cell w) true).
Proof. reflexivity. Qed.

(** With the test doubles the handler leaves exactly two records behind,
    whatever the two fields hold. *)
Lemma handleSubmit_spy (username password : string) (tr : list Observed) :
  LoginForm.handleSubmit spyLogin username password spyEvent tr
  = (Fulfilled tt,
     (tr ++ [SawPreventDefault; SawLogin username password])%list).
Proof.
  unfold LoginForm.handleSubmit, spyLogin, spyEvent, async, bind, call, await.
  simpl. now rewrite <- app_assoc.
Qed.

(** [steps] composes. *)
Lemma steps_app (l1 l2 : list Action) (w : World) :
  steps (l1 ++ l2) w = steps l2 (steps l1 w).
Proof.
  revert w. induction l1 as [|a l1 IH]; intros w; simpl.
  - reflexivity.
  - apply IH.
Qed.

(** Reachable states are the results of action sequences run from the
    first render. *)
Lemma reachable_steps (l : list Action) : reachable (steps l mount).
Proof.
  induction l as [|a l IH] using rev_ind.
  - exact reachable_mount.
  - rewrite steps_app. simpl. now apply reachable_step.
Qed.

Lemma reachable_inv (w : World) :
  reachable w -> exists l, w = steps l mount.
Proof.
  induction 1 as [|a w _ [l ->]].
  - now exists [].
  - exists (l ++ [a])%list. now rewrite steps_app.
Qed.

(** How each action moves the session cell. *)
Lemma step_user_cell (a : Action) (w : World) :
  user_cell (step a w)
  = match a with
    | CallLogin username _ => Some username
    | Submit => Some (username_cell w)
    | CallLogout => None
    | TypeUsername _ | TypePassword _ => user_cell w
    end.
Proof. destruct a; reflexivity. Qed.

(** X8: a present session was put there by a login call: if the tree, run from
    its first render, holds [Some u], then some action of the run made a
    login call with username [u]. *)
Lemma session_present_has_login (l : list Action) (u : string) :
  user_cell (steps l mount) = Some u ->
  exists l1 a l2,
    l = (l1 ++ a :: l2)%list /\ login_call a (steps l1 mount) = Some u.
Proof.
  induction l as [|a l IH] using rev_ind; intros H.
  - discriminate H.
  - rewrite steps_app in H. simpl in H. rewrite step_user_cell in H.
    destruct a as [u' p'| |v|v|].
    + exists l, (CallLogin u' p'), []. now split.
    + discriminate H.
    + destruct (IH H) as [l1 [a [l2 [-> Ha]]]].
      exists l1, a, (l2 ++ [TypeUsername v])%list.
      split; [now rewrite <- app_assoc | exact Ha].
    + destruct (IH H) as [l1 [a [l2 [-> Ha]]]].
      exists l1, a, (l2 ++ [TypePassword v])%list.
      split; [now rewrite <- app_assoc | exact Ha].
    + exists l, Submit, []. now split.
Qed.

(* ================================================================== *)
(** * The session after login and logout *)
(* ================================================================== *)




(** C2, as stated, fails: the state after [login("", "pw")] is reachable,
    its [user] is the empty string, which is not [null], and yet
    [isAuthenticated] is [false]. *)
Lemma isAuthenticated_not_presence_test :
  ~ (forall w, reachable w ->
       forall api, facade w = Normal api ->
         (AuthAPI.isAuthenticated api = true <-> AuthAPI.user api <> None)).
Proof.
  intros H.
  assert (R : reachable (step (CallLogin "" "pw") mount))
    by apply reachable_step, reachable_mount.
  destruct (H _ R _ eq_refl) as [_ Hpresent]. simpl in Hpresent.
  assert (E : false = true) by (apply Hpresent; discriminate).
  discriminate E.
Qed.

(** C2 (amended): in every reachable state the facade's [user] is the
    provider's single session scalar and [isAuthenticated] is its
    truthiness [!!user]: it is [true] if and only if [user] is neither
    [null] nor the empty string. *)
Theorem isAuthenticated_is_truthiness (w : World) :
  reachable w ->
  exists api,
    facade w = Normal api
    /\ AuthAPI.user api = user_cell w
    /\ AuthAPI.isAuthenticated api = ToBoolean (AuthAPI.user api)
    /\ (AuthAPI.isAuthenticated api = true
        <-> exists u, AuthAPI.user api = Some u /\ u <> "").
Proof.
  intros _. rewrite facade_eq. eexists. split; [reflexivity|]. simpl.
  split; [reflexivity|]. split; [reflexivity|].
  apply ToBoolean_true_iff.
Qed.

Lemma isAuthenticated_is_truthiness_witness :
  reachable (step (CallLogin "alice" "pw1") mount)
  /\ exists api,
       facade (step (CallLogin "alice" "pw1") mount) = Normal api
       /\ AuthAPI.user api = user_cell (step (CallLogin "alice" "pw1") mount)
       /\ AuthAPI.isAuthenticated api = ToBoolean (AuthAPI.user api)
       /\ (AuthAPI.isAuthenticated api = true
           <-> exists u, AuthAPI.user api = Some u /\ u <> "").
Proof.
  split.
  - apply reachable_step, reachable_mount.
  - apply (isAuthenticated_is_truthiness (step (CallLogin "alice" "pw1") mount)).
    apply reachable_step, reachable_mount.
Defined.

(** C4: after [logout], from any prior state (a user present, an empty
    one, or none), the facade shows [user == null] and
    [isAuthenticated == false]. *)
Theorem logout_then_read (w : World) :
  fst (logout w) = Normal tt
  /\ user_cell (step CallLogout w) = None
  /\ exists api,
       facade (step CallLogout w) = Normal api
       /\ AuthAPI.user api = None
       /\ AuthAPI.isAuthenticated api = false.
Proof.
  split; [reflexivity|]. split; [reflexivity|].
  rewrite facade_eq, step_user_cell.
  eexists. split; [reflexivity | split; reflexivity].
Qed.

(** C6: [logout] is idempotent: from any state, two calls in a row leave
    every cell as one call does, and the facade shows the same. *)
Theorem logout_idempotent (w : World) :
  snd (logout (snd (logout w))) = snd (logout w)
  /\ step CallLogout (step CallLogout w) = step CallLogout w
  /\ facade (step CallLogout (step CallLogout w)) = facade (step CallLogout w).
Proof.
  assert (E : step CallLogout (step CallLogout w) = step CallLogout w)
    by (destruct w; reflexivity).
  split; [exact E|]. split; [exact E|]. now rewrite E.
Qed.

(** C9: the password does not influence [login]: for every username and
    every two passwords, the two calls from the same state return the same
    settled promise and leave the same state, also through the facade. *)
Theorem login_ignores_password (u p1 p2 : string) (w : World) :
  login u p1 w = login u p2 w
  /\ step (CallLogin u p1) w = step (CallLogin u p2) w
  /\ facade (step (CallLogin u p1) w) = facade (step (CallLogin u p2) w).
Proof.
  split; [reflexivity|]. split; reflexivity.
Qed.

(** C10: [login] never fails: for every two strings and every state the
    returned promise is fulfilled (the call does not throw and the promise
    is not rejected), and the state it leaves differs from the prior one
    in the session cell only, which holds the username. *)
Theorem login_never_fails (u p : string) (w : World) :
  login u p w
  = (Fulfilled tt,
     mkWorld (Some u) (username_cell w) (password_cell w) (defaultPrevented w)).
Proof. apply login_eq. Qed.

(* ================================================================== *)
(** * The missing-provider error *)
(* ================================================================== *)

(** C3: outside the provider, [useAuth], the facade [useAuthAPI] and with
    it a render of the form throw the missing-provider error at the call,
    whatever the state; below the provider none of them throws; and nothing
    else in the system fails: [login] and the submit handler fulfil their
    promises, [logout] and the two field setters complete normally. *)
Theorem missing_provider_only_error (w : World) :
  (useAuth (useContext OutsideProvider w) = Throw missing_provider
   /\ Hooks.useAuthAPI (useContext OutsideProvider w) = Throw missing_provider
   /\ LoginForm.LoginForm (useContext OutsideProvider w) w
      = Throw missing_provider)
  /\ ((exists c, useAuth (useContext InsideProvider w) = Normal c)
      /\ (exists api, Hooks.useAuthAPI (useContext InsideProvider w) = Normal api)
      /\ (exists form,
             LoginForm.LoginForm (useContext InsideProvider w) w = Normal form))
  /\ ((forall u p, fst (login u p w) = Fulfilled tt)
      /\ fst (logout w) = Normal tt
      /\ (forall u p,
             fst (LoginForm.handleSubmit login u p submitEvent w) = Fulfilled tt)
      /\ (forall v, fst (setUsername v w) = Normal tt)
      /\ (forall v, fst (setPassword v w) = Normal tt)).
Proof.
  split; [|split].
  - repeat split.
  - repeat split; eexists; reflexivity.
  - repeat split.
Qed.

(* ================================================================== *)
(** * The login form *)
(* ================================================================== *)

(** What a render of the form wires to [onSubmit], for every context value
    and every state: [handleSubmit] closed over the context's [login] and
    over the two field cells of that render. *)
Lemma LoginForm_onSubmit (c : AuthContextType.t) (w : World) :
  exists form,
    LoginForm.LoginForm (Some c) w = Normal form
    /\ FormElement.onSubmit form
       = LoginForm.handleSubmit (AuthContextType.login c)
           (username_cell w) (password_cell w).
Proof.
  eexists. split; reflexivity.
Qed.

(** Submitting a rendered form with a browser event is one call of the
    context's [login] on the two field cells, made with the event's default
    prevented. *)
Lemma LoginForm_submit (c : AuthContextType.t) (w : World) :
  exists form,
    LoginForm.LoginForm (Some c) w = Normal form
    /\ FormElement.onSubmit form submitEvent (freshEvent w)
       = AuthContextType.login c (username_cell w) (password_cell w)
           (mkWorld (user_cell w) (username_cell w) (password_cell w) true).
Proof.
  eexists. split; [reflexivity|].
  simpl. unfold LoginForm.handleSubmit, async, bind, call. simpl.
  destruct (AuthContextType.login c (username_cell w) (password_cell w) _)
    as [[[]|err] w2]; reflexivity.
Qed.

(** C5: with the fields holding "alice" and "pw1", submitting the form
    results in exactly one call of the facade's [login], with those two
    strings as they are, and the default navigation is prevented.

    - The handler, run against a recording event and a recording [login],
      calls [preventDefault] and then [login] once, with "alice" and "pw1".
    - The form a render produces has that handler as [onSubmit], closed
      over the [login] of whatever context it is rendered in and over the
      two field cells.
    - After typing "alice" and "pw1" into the mounted form, submitting it
      is, for every context value, the single call [login("alice", "pw1")]
      of that context, made with the event's default prevented; with a
      context whose [login] logs its calls the log holds that one entry.
    - In the tree below the real provider the same run logs "alice" in and
      the page does not navigate. *)
Theorem submit_alice_pw1 :
  LoginForm.handleSubmit spyLogin "alice" "pw1" spyEvent []
  = (Fulfilled tt, [SawPreventDefault; SawLogin "alice" "pw1"])
  /\ filter is_login
       (snd (LoginForm.handleSubmit spyLogin "alice" "pw1" spyEvent []))
     = [SawLogin "alice" "pw1"]
  /\ (forall (c : AuthContextType.t) (w : World),
        exists form,
          LoginForm.LoginForm (Some c) w = Normal form
          /\ FormElement.onSubmit form
             = LoginForm.handleSubmit (AuthContextType.login c)
                 (username_cell w) (password_cell w))
  /\ (forall c : AuthContextType.t,
        exists form,
          LoginForm.LoginForm (Some c)
            (steps [TypeUsername "alice"; TypePassword "pw1"] mount)
          = Normal form
          /\ FormElement.onSubmit form submitEvent
               (freshEvent
                  (steps [TypeUsername "alice"; TypePassword "pw1"] mount))
             = AuthContextType.login c "alice" "pw1"
                 (mkWorld None "alice" "pw1" true))
  /\ (exists form,
        LoginForm.LoginForm
          (Some (loggingContext
                   (steps [TypeUsername "alice"; TypePassword "pw1"] mount)))
          (steps [TypeUsername "alice"; TypePassword "pw1"] mount)
        = Normal form
        /\ FormElement.onSubmit form submitEvent
             (freshEvent
                (steps [TypeUsername "alice"; TypePassword "pw1"] mount))
           = (Fulfilled tt,
              mkWorld (Some "login(alice,pw1);") "alice" "pw1" true))
  /\ steps [TypeUsername "alice"; TypePassword "pw1"; Submit] mount
     = mkWorld (Some "alice") "alice" "pw1" true
  /\ navigates (steps [TypeUsername "alice"; TypePassword "pw1"; Submit] mount)
     = false.
Proof.
  rewrite (handleSubmit_spy "alice" "pw1" []).
  split; [reflexivity|]. split; [reflexivity|].
  split; [exact LoginForm_onSubmit|].
  split.
  - intros c.
    exact (LoginForm_submit c
             (steps [TypeUsername "alice"; TypePassword "pw1"] mount)).
  - split.
    + eexists. split; reflexivity.
    + split; reflexivity.
Qed.

(* ================================================================== *)
(** * The export list *)
(* ================================================================== *)

(** C7, as stated, fails: [src/index.ts] exports four names, not three. *)
Lemma exports_not_three : length Index.names <> 3.
Proof. discriminate. Qed.

(** C7 (amended): the module exports exactly four distinct named bindings:
    the provider component [AuthProvider], the form component [LoginForm]
    and two hooks, the context hook [useAuth] and the facade hook
    [useAuthAPI]. *)
Theorem exports_are_four :
  Index.names = ["AuthProvider"; "useAuth"; "LoginForm"; "useAuthAPI"]
  /\ length Index.names = 4
  /\ NoDup Index.names
  /\ filter Index.is_hook Index.names = ["useAuth"; "useAuthAPI"]
  /\ filter (fun n => negb (Index.is_hook n)) Index.names
     = ["AuthProvider"; "LoginForm"].
Proof.
  split; [reflexivity|]. split; [reflexivity|]. split.
  - unfold Index.names. simpl.
    repeat (constructor; [simpl; intuition discriminate|]). constructor.
  - split; reflexivity.
Qed.

(* ================================================================== *)
(** * The life of the session *)
(* ================================================================== *)

(** C8: at the first render of the provider the session is absent
    ([user == null]); an action leaves [user] holding a username exactly
    when it makes a login call (directly or by submitting the form), in
    which case [user] is that call's username; [logout] makes it absent
    again; typing into the form leaves it as it is. *)
Theorem session_lifecycle :
  user_cell mount = None
  /\ facade mount = Normal (AuthAPI.mk false None login logout)
  /\ (forall u p w, user_cell (snd (login u p w)) = Some u)
  /\ (forall w, user_cell (snd (logout w)) = None)
  /\ (forall a w,
        user_cell (step a w)
        = match login_call a w with
          | Some u => Some u
          | None =>
              match a with
              | CallLogout => None
              | _ => user_cell w
              end
          end).
Proof.
  split; [reflexivity|]. split; [reflexivity|].
  split; [reflexivity|]. split; [reflexivity|].
  intros a w. rewrite step_user_cell. destruct a; reflexivity.
Qed.

(* ================================================================== *)
(** * Further properties of the form and of runs *)
(* ================================================================== *)

Lemma ToBoolean_Some (u : string) : ToBoolean (Some u) = negb (u =? "").
Proof. destruct u; reflexivity. Qed.

Lemma step_username_cell (a : Action) (w : World) :
  username_cell (step a w)
  = match a with
    | TypeUsername value => value
    | _ => username_cell w
    end.
Proof. destruct a; reflexivity. Qed.

Lemma step_password_cell (a : Action) (w : World) :
  password_cell (step a w)
  = match a with
    | TypePassword value => value
    | _ => password_cell w
    end.
Proof. destruct a; reflexivity. Qed.

Lemma step_defaultPrevented (a : Action) (w : World) :
  defaultPrevented (step a w)
  = match a with
    | Submit => true
    | _ => defaultPrevented w
    end.
Proof. destruct a; reflexivity. Qed.

(** The two fields along a run. *)
Lemma steps_fields (l : list Action) (w : World) :
  username_cell (steps l w) = last_username l (username_cell w)
  /\ password_cell (steps l w) = last_password l (password_cell w).
Proof.
  revert w. induction l as [|a l IH]; intros w; simpl.
  - split; reflexivity.
  - destruct (IH (step a w)) as [Hu Hp].
    rewrite Hu, Hp, step_username_cell, step_password_cell.
    destruct a; split; reflexivity.
Qed.

(** One step from two states that agree up to the password field, by two
    actions that agree up to their passwords. *)
Lemma step_same_but_password (a1 a2 : Action) (w1 w2 : World) :
  erase_password a1 = erase_password a2 ->
  same_but_password w1 w2 ->
  same_but_password (step a1 w1) (step a2 w2).
Proof.
  intros Ha [Hs [Hn Hd]]. unfold same_but_password.
  rewrite !step_user_cell, !step_username_cell, !step_defaultPrevented.
  destruct a1, a2; simpl in Ha; try discriminate Ha;
    try (injection Ha as ->); rewrite ?Hs, ?Hn, ?Hd; repeat split.
Qed.

Lemma steps_same_but_password (l1 l2 : list Action) (w1 w2 : World) :
  map erase_password l1 = map erase_password l2 ->
  same_but_password w1 w2 ->
  same_but_password (steps l1 w1) (steps l2 w2).
Proof.
  revert l2 w1 w2.
  induction l1 as [|a1 l1 IH]; intros [|a2 l2] w1 w2 Hl Hw; simpl in *;
    try discriminate Hl.
  - exact Hw.
  - injection Hl as Ha Hl.
    apply IH; [exact Hl | now apply step_same_but_password].
Qed.

(** X1: the submit handler adds nothing to [login]: once [preventDefault]
    has returned, the promise and the state the handler produces are those
    of [login(username, password)] called in the state [preventDefault]
    left.  A rejection is handed on as it is (the handler has no [catch]),
    and so is a fulfilment; this holds for every [login], every event and
    every pair of field values. *)
Theorem handleSubmit_after_preventDefault
  (W : Type) (apiLogin : string -> string -> Async W unit)
  (username password : string) (e : FormEvent.t W) (w w1 : W) :
  FormEvent.preventDefault e w = (Normal tt, w1) ->
  LoginForm.handleSubmit apiLogin username password e w
  = apiLogin username password w1.
Proof.
  intros He. unfold LoginForm.handleSubmit, async, bind, call. rewrite He.
  destruct (apiLogin username password w1) as [[[]|err] w2]; reflexivity.
Qed.

Lemma handleSubmit_after_preventDefault_witness :
  FormEvent.preventDefault spyEvent [] = (Normal tt, [SawPreventDefault])
  /\ LoginForm.handleSubmit (rejectingLogin missing_provider) "alice" "pw1"
       spyEvent []
     = rejectingLogin missing_provider "alice" "pw1" [SawPreventDefault].
Proof.
  split; [reflexivity|].
  apply (handleSubmit_after_preventDefault (list Observed)
           (rejectingLogin missing_provider) "alice" "pw1" spyEvent
           [] [SawPreventDefault]).
  reflexivity.
Defined.

(** X2: [preventDefault] comes first: if it throws, the handler's promise
    is rejected with that error and [login] is not called, so the state is
    the one [preventDefault] left, whatever [login] is. *)
Theorem handleSubmit_preventDefault_throws
  (W : Type) (apiLogin : string -> string -> Async W unit)
  (username password : string) (e : FormEvent.t W) (w w1 : W) (err : Error) :
  FormEvent.preventDefault e w = (Throw err, w1) ->
  LoginForm.handleSubmit apiLogin username password e w = (Rejected err, w1).
Proof.
  intros He. unfold LoginForm.handleSubmit, async, bind. now rewrite He.
Qed.

Lemma handleSubmit_preventDefault_throws_witness :
  FormEvent.preventDefault (throwingEvent missing_provider) []
  = (Throw missing_provider, [])
  /\ LoginForm.handleSubmit spyLogin "alice" "pw1"
       (throwingEvent missing_provider) []
     = (Rejected missing_provider, []).
Proof.
  split; [reflexivity|].
  apply (handleSubmit_preventDefault_throws (list Observed) spyLogin
           "alice" "pw1" (throwingEvent missing_provider) [] []
           missing_provider).
  reflexivity.
Defined.

(** X3: submitting the form logs in whatever the username field holds, the
    empty string included: afterwards the facade shows that string as
    [user], and [isAuthenticated] is [true] exactly when the field was not
    empty.  The password field plays no part. *)
Theorem submit_authenticates_by_username (w : World) :
  facade (step Submit w)
  = Normal (AuthAPI.mk (negb (username_cell w =? ""))
                       (Some (username_cell w)) login logout).
Proof.
  rewrite facade_eq, step_user_cell. now rewrite ToBoolean_Some.
Qed.

(** X4: [login] and [logout] overwrite the session without looking at it:
    a second [login] replaces the user of the first, [login] after
    [logout] is [login], and [logout] after [login] is [logout]. *)
Theorem auth_calls_overwrite (u1 p1 u2 p2 : string) (w : World) :
  step (CallLogin u2 p2) (step (CallLogin u1 p1) w) = step (CallLogin u2 p2) w
  /\ step (CallLogin u2 p2) (step CallLogout w) = step (CallLogin u2 p2) w
  /\ step CallLogout (step (CallLogin u1 p1) w) = step CallLogout w.
Proof.
  destruct w. repeat split.
Qed.

(** X5: along every run each field of the form holds the value last typed
    into it, or what it held before when nothing was typed: [login],
    [logout] and submitting never clear or change a field, so the password
    stays in the form after a login. *)
Theorem fields_follow_typing (l : list Action) (w : World) :
  username_cell (steps l w) = last_username l (username_cell w)
  /\ password_cell (steps l w) = last_password l (password_cell w).
Proof. apply steps_fields. Qed.

(** X6: a submit at the end of a run logs in the username last typed
    during the run (the handler of the latest render is the one called,
    never one holding an older value), and prevents the default
    navigation. *)
Theorem submit_uses_latest_username (l : list Action) (w : World) :
  user_cell (steps (l ++ [Submit]) w)
  = Some (last_username l (username_cell w))
  /\ navigates (steps (l ++ [Submit]) w) = false.
Proof.
  rewrite steps_app.
  change (steps [Submit] (steps l w)) with (step Submit (steps l w)).
  unfold navigates. rewrite step_user_cell, step_defaultPrevented.
  destruct (steps_fields l w) as [Hu _]. now rewrite Hu.
Qed.

(** X7: no password reaches the session: two runs from the same state
    that differ only in the passwords typed or passed to [login] end with
    the same session, the same username field and the same facade. *)
Theorem password_never_reaches_session (l1 l2 : list Action) (w : World) :
  map erase_password l1 = map erase_password l2 ->
  user_cell (steps l1 w) = user_cell (steps l2 w)
  /\ username_cell (steps l1 w) = username_cell (steps l2 w)
  /\ facade (steps l1 w) = facade (steps l2 w).
Proof.
  intros Hl.
  destruct (steps_same_but_password l1 l2 w w Hl) as [Hs [Hn _]].
  - repeat split.
  - split; [exact Hs|]. split; [exact Hn|].
    now rewrite !facade_eq, Hs.
Qed.

Lemma password_never_reaches_session_witness :
  map erase_password [TypeUsername "alice"; TypePassword "pw1"; Submit]
  = map erase_password [TypeUsername "alice"; TypePassword "other"; Submit]
  /\ (user_cell (steps [TypeUsername "alice"; TypePassword "pw1"; Submit] mount)
      = user_cell
          (steps [TypeUsername "alice"; TypePassword "other"; Submit] mount)
      /\ username_cell
           (steps [TypeUsername "alice"; TypePassword "pw1"; Submit] mount)
         = username_cell
             (steps [TypeUsername "alice"; TypePassword "other"; Submit] mount)
      /\ facade (steps [TypeUsername "alice"; TypePassword "pw1"; Submit] mount)
         = facade
             (steps [TypeUsername "alice"; TypePassword "other"; Submit] mount)).
Proof.
  split; [reflexivity|].
  apply (password_never_reaches_session
           [TypeUsername "alice"; TypePassword "pw1"; Submit]
           [TypeUsername "alice"; TypePassword "other"; Submit] mount).
  reflexivity.
Defined.

Lemma session_present_has_login_witness :
  user_cell (steps [TypeUsername "alice"; Submit; TypePassword "pw1"] mount)
  = Some "alice"
  /\ exists l1 a l2,
       [TypeUsername "alice"; Submit; TypePassword "pw1"] = (l1 ++ a :: l2)%list
       /\ login_call a (steps l1 mount) = Some "alice".
Proof.
  split; [reflexivity|].
  apply (session_present_has_login
           [TypeUsername "alice"; Submit; TypePassword "pw1"] "alice").
  reflexivity.
Defined.

(** X9: the inputs are controlled by the state: after a keystroke in one
    input the next render of the form shows the typed value in that input
    and the other input as it was, and it does not throw. *)
Theorem typed_value_is_shown (value : string) (w : World) :
  (exists form,
      renderForm (step (TypeUsername value) w) = Normal form
      /\ FormElement.usernameValue form = value
      /\ FormElement.passwordValue form = password_cell w)
  /\ (exists form,
         renderForm (step (TypePassword value) w) = Normal form
         /\ FormElement.usernameValue form = username_cell w
         /\ FormElement.passwordValue form = value).
Proof.
  split; eexists; (split; [reflexivity|]); split; reflexivity.
Qed.

(** X10: keystrokes alone never change the session: after any run made of
    typing into the two inputs, [user] and everything the facade shows are
    what they were before. *)
Theorem typing_keeps_session (l : list Action) (w : World) :
  forallb is_typing l = true ->
  user_cell (steps l w) = user_cell w /\ facade (steps l w) = facade w.
Proof.
  revert w. induction l as [|a l IH]; intros w Hl; simpl in *.
  - split; reflexivity.
  - apply andb_prop in Hl as [Ha Hl].
    destruct (IH (step a w) Hl) as [Hu Hf].
    rewrite Hu, Hf, !facade_eq, step_user_cell.
    destruct a; try discriminate Ha; split; reflexivity.
Qed.

Lemma typing_keeps_session_witness :
  forallb is_typing [TypeUsername "alice"; TypePassword "pw1"] = true
  /\ user_cell (steps [TypeUsername "alice"; TypePassword "pw1"]
                  (step (CallLogin "bob" "pw2") mount))
     = user_cell (step (CallLogin "bob" "pw2") mount)
  /\ facade (steps [TypeUsername "alice"; TypePassword "pw1"]
               (step (CallLogin "bob" "pw2") mount))
     = facade (step (CallLogin "bob" "pw2") mount).
Proof.
  split; [reflexivity|].
  apply (typing_keeps_session [TypeUsername "alice"; TypePassword "pw1"]
           (step (CallLogin "bob" "pw2") mount)).
  reflexivity.
Defined.
